(** * uad_edit.py: the package-list rewriting script

    A shallow embedding of [resources/assets/uad_edit.py].  The script
    loads [uad_lists2.json], walks over the entries of the top-level
    object, drops three fields of every entry, renames two values of the
    [removal] field and dumps the result to [uad_listNew.json].

    The development covers the loop, from the value [json.load] returns
    to the value handed to [json.dump].  Opening, decoding and writing
    the two files is the work of Python's library and of the operating
    system, and is not modelled.

    Layout of the development:
    - [Json]   : the values [json.load] produces, and the exceptions;
    - [Dict]   : Python's insertion-ordered [dict] as an association list;
    - [Py]     : the operators the script applies to a value
                 ([in], [del], [.get], [[]=], [==], [.items()]);
    - [UadEdit]: the loop of the script;
    - the theorems. *)

From Stdlib Require Import List String ZArith Bool.
From Stdlib Require Import Floats.PrimFloat.
Import ListNotations.
Local Open Scope string_scope.
Local Open Scope list_scope.

Set Implicit Arguments.
Set Warnings "-register-all".

(* ------------------------------------------------------------------ *)
(** ** Values and exceptions *)

Module Json.

(** What [json.load] builds: [None], [bool], [int], [float], [str],
    [list], and [dict] with [str] keys, in the order of the file. *)
Inductive json : Type :=
| JNull
| JBool (b : bool)
| JInt (n : Z)
| JFloat (f : float)
| JStr (s : string)
| JList (l : list json)
| JDict (d : list (string * json)).

(** The exceptions the script can die with.  [OSError] is Python's
    [IOError]; [JSONDecodeError] is the parse error of [json.load]. *)
Inductive exn : Type :=
| OSError
| JSONDecodeError
| TypeError
| AttributeError
| KeyError.

Inductive result (A : Type) : Type :=
| Ok (a : A)
| Raise (e : exn).

Arguments Raise {A} e.

Definition bind {A B : Type} (m : result A) (k : A -> result B) : result B :=
  match m with
  | Ok a => k a
  | Raise e => Raise e
  end.

End Json.
Export Json.

Declare Scope py_scope.
Delimit Scope py_scope with py.
Notation "x <- m ;; k" := (bind m (fun x => k))
  (at level 61, m at next level, right associativity) : py_scope.
Local Open Scope py_scope.

(* ------------------------------------------------------------------ *)
(** ** The insertion-ordered dictionary *)

Module Dict.

(** A [dict] lists its items in insertion order and holds a key at
    most once ([uniq]).  The operations below are written so that they
    are meaningful on any list of pairs; on a list with [uniq] keys
    they are Python's. *)
Definition dict : Type := list (string * json).

Definition keys (d : dict) : list string := map fst d.

Definition uniq (d : dict) : Prop := NoDup (keys d).

(** [d[k]] when present. *)
Fixpoint lookup (k : string) (d : dict) : option json :=
  match d with
  | [] => None
  | (k', v) :: d' => if String.eqb k k' then Some v else lookup k d'
  end.

(** [k in d] *)
Definition mem (k : string) (d : dict) : bool :=
  match lookup k d with Some _ => true | None => false end.

(** [del d[k]]: the item leaves, the others keep their places. *)
Definition remove (k : string) (d : dict) : dict :=
  filter (fun kv => negb (String.eqb k (fst kv))) d.

(** [d[k] = v]: an existing key keeps its place and takes the new
    value, a new key goes to the end. *)
Fixpoint set (k : string) (v : json) (d : dict) : dict :=
  match d with
  | [] => [(k, v)]
  | (k', v') :: d' =>
      if String.eqb k k' then (k', v) :: d' else (k', v') :: set k v d'
  end.

End Dict.
Export Dict.

(* ------------------------------------------------------------------ *)
(** ** The operators of the script, on any value *)

Module Py.

(** [k in s] for two strings: [k] occurs in [s]. *)
Fixpoint substring_of (k s : string) : bool :=
  prefix k s
  || match s with
     | EmptyString => false
     | String _ s' => substring_of k s'
     end.

(** [v == s] for a string literal [s]: only a [str] can be equal. *)
Definition eq_str (v : json) (s : string) : bool :=
  match v with
  | JStr t => String.eqb t s
  | _ => false
  end.

(** [k in v].  A [dict] tests its keys, a [list] its elements, a [str]
    its substrings; the other values are not containers. *)
Definition contains (k : string) (v : json) : result bool :=
  match v with
  | JDict d => Ok (mem k d)
  | JList l => Ok (existsb (fun x => eq_str x k) l)
  | JStr s => Ok (substring_of k s)
  | _ => Raise TypeError
  end.

(** [del v[k]] with a string [k]. *)
Definition delitem (k : string) (v : json) : result json :=
  match v with
  | JDict d => if mem k d then Ok (JDict (remove k d)) else Raise KeyError
  | _ => Raise TypeError
  end.

(** [v.get(k)]: only a [dict] has the method; a missing key gives
    [None]. *)
Definition get (k : string) (v : json) : result json :=
  match v with
  | JDict d => Ok (match lookup k d with Some x => x | None => JNull end)
  | _ => Raise AttributeError
  end.

(** [v[k] = x] with a string [k]. *)
Definition setitem (k : string) (x : json) (v : json) : result json :=
  match v with
  | JDict d => Ok (JDict (set k x d))
  | _ => Raise TypeError
  end.

(** [v.items()] *)
Definition items (v : json) : result dict :=
  match v with
  | JDict d => Ok d
  | _ => Raise AttributeError
  end.

End Py.
Export Py.

(* ------------------------------------------------------------------ *)
(** ** The script *)

Module UadEdit.

(** [if k in app_data: del app_data[k]] *)
Definition drop (k : string) (app_data : json) : result json :=
  b <- contains k app_data ;;
  if b then delitem k app_data else Ok app_data.

(** The body of the [for] loop, on one [app_data]. *)
Definition body (app_data : json) : result json :=
  app_data <- drop "neededBy" app_data ;;
  app_data <- drop "labels" app_data ;;
  app_data <- drop "dependencies" app_data ;;
  removal <- get "removal" app_data ;;
  if eq_str removal "Recommended" then
    setitem "removal" (JStr "Safe") app_data
  else if eq_str removal "Expert" then
    setitem "removal" (JStr "Disruptive") app_data
  else Ok app_data.

(** [for app_id, app_data in data.items(): ...], the entries taken in
    order; the first exception ends the run. *)
Fixpoint loop (entries : dict) : result dict :=
  match entries with
  | [] => Ok []
  | (app_id, app_data) :: rest =>
      app_data' <- body app_data ;;
      rest' <- loop rest ;;
      Ok ((app_id, app_data') :: rest')
  end.

(** From [data = json.load(file)] to the value handed to [json.dump]. *)
Definition transform (data : json) : result json :=
  entries <- items data ;;
  entries' <- loop entries ;;
  Ok (JDict entries').

End UadEdit.
Export UadEdit.

(* ------------------------------------------------------------------ *)
(** ** Vocabulary of the statements *)

Definition is_dict (v : json) : bool :=
  match v with JDict _ => true | _ => false end.

(** A Document whose entries are objects. *)
Definition all_objects (d : dict) : bool :=
  forallb (fun e => is_dict (snd e)) d.

(** The record after the three deletions. *)
Definition strip (r : dict) : dict :=
  remove "dependencies" (remove "labels" (remove "neededBy" r)).

(** What the loop body leaves of a record, as a function on [dict]. *)
Definition edit (r : dict) : dict :=
  let r := strip r in
  let removal := match lookup "removal" r with Some x => x | None => JNull end in
  if eq_str removal "Recommended" then set "removal" (JStr "Safe") r
  else if eq_str removal "Expert" then set "removal" (JStr "Disruptive") r
  else r.

Definition edit_value (v : json) : json :=
  match v with JDict r => JDict (edit r) | _ => v end.

(** Entry by entry, [d'] has the identifiers of [d], and the records of
    the two are related by [P]. *)
Definition entrywise (P : dict -> dict -> Prop) (d d' : dict) : Prop :=
  Forall2 (fun e e' =>
             fst e' = fst e /\
             exists r r', snd e = JDict r /\ snd e' = JDict r' /\ P r r')
          d d'.

(** The three fields the script deletes. *)
Definition deleted (k : string) : bool :=
  String.eqb k "neededBy" || String.eqb k "labels"
  || String.eqb k "dependencies".

(** The examples of the specification. *)
Definition example1 : dict :=
  [("app.id", JDict [("removal", JStr "Recommended");
                     ("labels", JList [JStr "x"]);
                     ("other", JInt 1)])].

Definition example2 : dict :=
  [("app.id", JDict [("removal", JStr "Expert");
                     ("dependencies", JList [])])].

Definition example3 : dict :=
  [("app.id", JDict [("removal", JStr "Unknown")])].

(** A Document with four records: one of each renaming case, and an
    empty one. *)
Definition sample : dict :=
  [("com.a", JDict [("list", JStr "Oem");
                    ("removal", JStr "Recommended");
                    ("labels", JList [JStr "x"]);
                    ("other", JInt 1)]);
   ("com.b", JDict [("neededBy", JList []);
                    ("removal", JStr "Expert");
                    ("dependencies", JList [])]);
   ("com.c", JDict [("removal", JStr "Unknown");
                    ("description", JNull)]);
   ("com.d", JDict [])].

(** The renaming of step 4, on a value. *)
Definition rename (v : json) : json :=
  if eq_str v "Recommended" then JStr "Safe"
  else if eq_str v "Expert" then JStr "Disruptive"
  else v.

Definition rename_item (kv : string * json) : string * json :=
  if String.eqb "removal" (fst kv) then (fst kv, rename (snd kv)) else kv.

(** The loop body written without mutation: keep the items whose key is
    not deleted, rename the value under [removal].  It is compared with
    [edit] below. *)
Definition comprehension (r : dict) : dict :=
  map rename_item (filter (fun kv => negb (deleted (fst kv))) r).

(** A record the loop body has nothing to do on. *)
Definition settled (r : dict) : bool :=
  negb (mem "neededBy" r) && negb (mem "labels" r)
  && negb (mem "dependencies" r)
  && match lookup "removal" r with
     | Some x => negb (eq_str x "Recommended") && negb (eq_str x "Expert")
     | None => true
     end.

Definition settled_value (v : json) : bool :=
  match v with JDict r => settled r | _ => false end.

Definition settled_doc (d : dict) : bool :=
  forallb (fun e => settled_value (snd e)) d.

(** [k in l] for a list [l], as one test. *)
Definition has (k : string) (l : list json) : bool :=
  existsb (fun x => eq_str x k) l.

(** A Document whose third entry is a list, and whose fourth is a
    number. *)
Definition mixed : dict :=
  [("com.a", JDict [("removal", JStr "Expert")]);
   ("com.b", JDict []);
   ("com.c", JList [JStr "x"]);
   ("com.d", JInt 7)].

Example transform_example1 :
  transform (JDict example1)
  = Ok (JDict [("app.id", JDict [("removal", JStr "Safe"); ("other", JInt 1)])]).
Proof. reflexivity. Qed.

Example transform_example2 :
  transform (JDict example2)
  = Ok (JDict [("app.id", JDict [("removal", JStr "Disruptive")])]).
Proof. reflexivity. Qed.

Example transform_example3 :
  transform (JDict example3) = Ok (JDict example3).
Proof. reflexivity. Qed.

(** An entry that is a string, a list or a number ends the run. *)
Example transform_string_entry :
  transform (JDict [("a", JStr "xlabelsx")]) = Raise TypeError.
Proof. reflexivity. Qed.

Example transform_list_entry :
  transform (JDict [("a", JList [JStr "other"])]) = Raise AttributeError.
Proof. reflexivity. Qed.

Example transform_number_entry :
  transform (JDict [("a", JInt 3)]) = Raise TypeError.
Proof. reflexivity. Qed.

Example transform_toplevel_list :
  transform (JList []) = Raise AttributeError.
Proof. reflexivity. Qed.

(* ------------------------------------------------------------------ *)
(** ** Facts about the dictionary *)

Section DictFacts.

Variables (k k' : string) (v : json).

Lemma lookup_remove_same (d : dict) : lookup k (remove k d) = None.
Proof.
  induction d as [|[k0 v0] d IH]; simpl; [reflexivity|].
  destruct (String.eqb k k0) eqn:E; simpl; [exact IH|].
  now rewrite E.
Qed.

Lemma lookup_remove_other (d : dict) :
  k <> k' -> lookup k (remove k' d) = lookup k d.
Proof.
  intros N. induction d as [|[k0 v0] d IH]; simpl; [reflexivity|].
  destruct (String.eqb k' k0) eqn:E; simpl.
  - apply String.eqb_eq in E. subst k0.
    apply String.eqb_neq in N. now rewrite N.
  - now rewrite IH.
Qed.

Lemma remove_absent (d : dict) : lookup k d = None -> remove k d = d.
Proof.
  induction d as [|[k0 v0] d IH]; simpl; [reflexivity|].
  destruct (String.eqb k k0); simpl; [discriminate|].
  intros H. now rewrite IH.
Qed.

Lemma lookup_set_same (d : dict) : lookup k (set k v d) = Some v.
Proof.
  induction d as [|[k0 v0] d IH]; simpl.
  - now rewrite String.eqb_refl.
  - destruct (String.eqb k k0) eqn:E; simpl; now rewrite E.
Qed.

Lemma lookup_set_other (d : dict) :
  k <> k' -> lookup k (set k' v d) = lookup k d.
Proof.
  intros N. pose proof N as Nb. apply String.eqb_neq in Nb.
  induction d as [|[k0 v0] d IH]; simpl.
  - now rewrite Nb.
  - destruct (String.eqb k' k0) eqn:E; simpl.
    + apply String.eqb_eq in E. subst k0. now rewrite Nb.
    + now rewrite IH.
Qed.

Lemma lookup_None_iff (d : dict) : lookup k d = None <-> ~ In k (keys d).
Proof.
  induction d as [|[k0 v0] d IH]; simpl; [tauto|].
  destruct (String.eqb k k0) eqn:E.
  - apply String.eqb_eq in E. subst k0. split; [discriminate | tauto].
  - apply String.eqb_neq in E. rewrite IH. split.
    + intros H [H'|H']; [now apply E | now apply H].
    + tauto.
Qed.

Lemma keys_set_present (d : dict) :
  lookup k d <> None -> keys (set k v d) = keys d.
Proof.
  induction d as [|[k0 v0] d IH]; simpl; [congruence|].
  destruct (String.eqb k k0); simpl; [reflexivity|].
  intros H. f_equal. now apply IH.
Qed.

Lemma keys_remove (d : dict) :
  keys (remove k d) = filter (fun x => negb (String.eqb k x)) (keys d).
Proof.
  induction d as [|[k0 v0] d IH]; simpl; [reflexivity|].
  destruct (String.eqb k k0); simpl; [exact IH|].
  f_equal. exact IH.
Qed.

Lemma In_keys_remove (d : dict) x : In x (keys (remove k d)) -> In x (keys d).
Proof. rewrite keys_remove. intros H. now apply filter_In in H. Qed.

Lemma uniq_remove (d : dict) : uniq d -> uniq (remove k d).
Proof.
  unfold uniq. induction d as [|[k0 v0] d IH]; simpl; [trivial|].
  intros H. inversion H as [|? ? Hn Hd]; subst.
  destruct (String.eqb k k0); simpl; [now apply IH|].
  constructor; [|now apply IH].
  intros Hin. apply Hn. now apply In_keys_remove.
Qed.

Lemma In_keys_set (d : dict) x : In x (keys (set k v d)) -> x = k \/ In x (keys d).
Proof.
  induction d as [|[k0 v0] d IH]; simpl.
  - intros [H|[]]. now left.
  - destruct (String.eqb k k0); simpl; [tauto|].
    intros [H|H]; [tauto|]. destruct (IH H); tauto.
Qed.

Lemma uniq_set (d : dict) : uniq d -> uniq (set k v d).
Proof.
  unfold uniq. induction d as [|[k0 v0] d IH]; simpl.
  - intros _. constructor; [intros []|constructor].
  - intros H. inversion H as [|? ? Hn Hd]; subst.
    destruct (String.eqb k k0) eqn:E; simpl.
    + now constructor.
    + constructor; [|now apply IH].
      intros Hin. apply In_keys_set in Hin. destruct Hin as [->|Hin].
      * now rewrite String.eqb_refl in E.
      * now apply Hn.
Qed.

End DictFacts.

(* ------------------------------------------------------------------ *)
(** ** The loop body, on a record and on anything else *)

Lemma drop_dict (k : string) (r : dict) :
  drop k (JDict r) = Ok (JDict (remove k r)).
Proof.
  unfold drop, contains, delitem, bind, mem.
  destruct (lookup k r) eqn:E; [reflexivity|].
  now rewrite remove_absent.
Qed.

Lemma body_dict (r : dict) : body (JDict r) = Ok (JDict (edit r)).
Proof.
  unfold body, edit, strip. repeat (rewrite drop_dict; cbn [bind]).
  cbn [bind get setitem]. cbv zeta.
  repeat match goal with |- context [if ?b then _ else _] => destruct b end;
    reflexivity.
Qed.

Lemma drop_not_dict (k : string) (v : json) :
  is_dict v = false -> drop k v = Ok v \/ drop k v = Raise TypeError.
Proof.
  destruct v; simpl; try discriminate; intros _; unfold drop; simpl; auto;
    match goal with |- context [if ?b then _ else _] => destruct b end; auto.
Qed.

Lemma body_not_dict (v : json) :
  is_dict v = false -> body v = Raise TypeError \/ body v = Raise AttributeError.
Proof.
  intros H. unfold body.
  destruct (drop_not_dict "neededBy" v H) as [-> | ->]; [|now left].
  destruct (drop_not_dict "labels" v H) as [E | E];
    cbn [bind]; rewrite E; [|now left].
  destruct (drop_not_dict "dependencies" v H) as [E' | E'];
    cbn [bind]; rewrite E'; [|now left].
  right. destruct v; try discriminate; reflexivity.
Qed.

Lemma body_ok_inv (v v' : json) :
  body v = Ok v' -> exists r, v = JDict r /\ v' = JDict (edit r).
Proof.
  destruct (is_dict v) eqn:E.
  - destruct v; try discriminate. rewrite body_dict.
    intros [= <-]. now exists d.
  - destruct (body_not_dict v E) as [-> | ->]; discriminate.
Qed.

(** On a Document whose entries are objects the loop returns, and what
    it returns is [edit] applied to every record. *)
Lemma loop_objects (d : dict) :
  all_objects d = true ->
  loop d = Ok (map (fun e => (fst e, edit_value (snd e))) d).
Proof.
  induction d as [|[app_id app_data] d IH]; simpl; [reflexivity|].
  intros H. apply andb_prop in H. destruct H as [Hd Hrest].
  destruct app_data; try discriminate.
  rewrite body_dict. cbn [bind]. rewrite (IH Hrest). reflexivity.
Qed.

Lemma loop_ok_inv (d d' : dict) :
  loop d = Ok d' ->
  all_objects d = true /\ d' = map (fun e => (fst e, edit_value (snd e))) d.
Proof.
  revert d'. induction d as [|[app_id app_data] d IH]; simpl; intros d'.
  - intros [= <-]. auto.
  - destruct (body app_data) as [a|e] eqn:Eb; [|discriminate].
    apply body_ok_inv in Eb. destruct Eb as (r & -> & ->).
    cbn [bind]. destruct (loop d) as [rest|e] eqn:El; [|discriminate].
    destruct (IH rest eq_refl) as [Hall ->].
    intros [= <-]. simpl. now rewrite Hall.
Qed.

Lemma loop_raise (d : dict) (e : exn) :
  loop d = Raise e -> e = TypeError \/ e = AttributeError.
Proof.
  induction d as [|[app_id app_data] d IH]; simpl; [discriminate|].
  destruct (body app_data) as [a|e'] eqn:Eb; cbn [bind].
  - destruct (loop d) as [rest|e'']; [discriminate|].
    intros [= <-]. now apply IH.
  - intros [= <-]. destruct (is_dict app_data) eqn:E.
    + destruct app_data; try discriminate. now rewrite body_dict in Eb.
    + destruct (body_not_dict app_data E) as [E'|E']; rewrite E' in Eb;
        injection Eb as <-; auto.
Qed.

Lemma transform_objects (d : dict) :
  all_objects d = true ->
  transform (JDict d)
  = Ok (JDict (map (fun e => (fst e, edit_value (snd e))) d)).
Proof. intros H. unfold transform. simpl. now rewrite loop_objects. Qed.

Lemma transform_ok_inv (data out : json) :
  transform data = Ok out ->
  exists d, data = JDict d /\ all_objects d = true /\
            out = JDict (map (fun e => (fst e, edit_value (snd e))) d).
Proof.
  unfold transform. destruct data; try discriminate. simpl.
  destruct (loop d) as [d'|e] eqn:E; [|discriminate].
  intros [= <-]. apply loop_ok_inv in E. destruct E as [H ->].
  exists d. auto.
Qed.

Lemma transform_raise (data : json) (e : exn) :
  transform data = Raise e -> e = TypeError \/ e = AttributeError.
Proof.
  unfold transform. destruct data; simpl; try (intros [= <-]; now right).
  destruct (loop d) as [d'|e'] eqn:E; [discriminate|].
  intros [= <-]. now apply loop_raise in E.
Qed.

(** A property of [edit] holds entry by entry between a Document and its
    transform. *)
Lemma entrywise_edit (P : dict -> dict -> Prop) (d : dict) :
  (forall r, P r (edit r)) ->
  all_objects d = true ->
  entrywise P d (map (fun e => (fst e, edit_value (snd e))) d).
Proof.
  intros HP. unfold entrywise.
  induction d as [|[app_id app_data] d IH]; simpl; [constructor|].
  intros H. apply andb_prop in H. destruct H as [Hd Hrest].
  destruct app_data; try discriminate.
  constructor; [|now apply IH].
  simpl. split; [reflexivity|]. eauto.
Qed.

Lemma transform_entrywise (P : dict -> dict -> Prop) (d : dict) :
  (forall r, P r (edit r)) ->
  all_objects d = true ->
  exists d', transform (JDict d) = Ok (JDict d') /\ entrywise P d d'.
Proof.
  intros HP H. eexists. split; [now apply transform_objects|].
  now apply entrywise_edit.
Qed.

(* ------------------------------------------------------------------ *)
(** ** What [edit] does to a record *)

Lemma eq_str_true (x : json) (s : string) :
  eq_str x s = true <-> x = JStr s.
Proof.
  destruct x; simpl; try (split; [discriminate | intros [=]]).
  rewrite String.eqb_eq. split; [now intros -> | now intros [= ->]].
Qed.

Lemma lookup_strip_deleted (k : string) (r : dict) :
  deleted k = true -> lookup k (strip r) = None.
Proof.
  unfold deleted, strip. intros H.
  apply orb_prop in H. destruct H as [H | H];
    [apply orb_prop in H; destruct H as [H | H] |];
    apply String.eqb_eq in H; subst k.
  - rewrite !lookup_remove_other by discriminate. apply lookup_remove_same.
  - rewrite lookup_remove_other by discriminate. apply lookup_remove_same.
  - apply lookup_remove_same.
Qed.

Lemma lookup_strip_other (k : string) (r : dict) :
  deleted k = false -> lookup k (strip r) = lookup k r.
Proof.
  unfold deleted, strip. intros H.
  apply orb_false_elim in H. destruct H as [H H3].
  apply orb_false_elim in H. destruct H as [H1 H2].
  apply String.eqb_neq in H1, H2, H3.
  now rewrite !lookup_remove_other.
Qed.

Lemma filter_twice (A : Type) (f g : A -> bool) (l : list A) :
  filter g (filter f l) = filter (fun x => f x && g x) l.
Proof.
  induction l as [|x l IH]; cbn [filter]; [reflexivity|].
  destruct (f x); cbn [filter andb]; [|exact IH].
  destruct (g x); now rewrite IH.
Qed.

Lemma keys_strip (r : dict) :
  keys (strip r) = filter (fun k => negb (deleted k)) (keys r).
Proof.
  unfold strip. rewrite !keys_remove, !filter_twice.
  apply filter_ext. intros k. unfold deleted.
  rewrite (String.eqb_sym k "neededBy"), (String.eqb_sym k "labels"),
    (String.eqb_sym k "dependencies").
  rewrite !negb_orb. apply andb_assoc.
Qed.

(** The three ways through the renaming. *)
Lemma edit_cases (r : dict) :
  (lookup "removal" r = Some (JStr "Recommended")
   /\ edit r = set "removal" (JStr "Safe") (strip r))
  \/ (lookup "removal" r = Some (JStr "Expert")
      /\ edit r = set "removal" (JStr "Disruptive") (strip r))
  \/ (lookup "removal" r <> Some (JStr "Recommended")
      /\ lookup "removal" r <> Some (JStr "Expert")
      /\ edit r = strip r).
Proof.
  unfold edit. cbv zeta.
  rewrite (lookup_strip_other "removal" r eq_refl).
  destruct (lookup "removal" r) as [x|] eqn:E.
  - destruct (eq_str x "Recommended") eqn:E1.
    + apply eq_str_true in E1. subst x. now left.
    + destruct (eq_str x "Expert") eqn:E2.
      * apply eq_str_true in E2. subst x. right. now left.
      * right. right. repeat split; try reflexivity.
        -- intros [= ->]. discriminate.
        -- intros [= ->]. discriminate.
  - cbn [eq_str]. right. right. repeat split; discriminate.
Qed.

Lemma edit_recommended (r : dict) :
  lookup "removal" r = Some (JStr "Recommended") ->
  lookup "removal" (edit r) = Some (JStr "Safe").
Proof.
  intros H. destruct (edit_cases r) as [[_ ->] | [[E _] | (N & _ & _)]].
  - apply lookup_set_same.
  - rewrite H in E. discriminate.
  - contradiction.
Qed.

Lemma edit_expert (r : dict) :
  lookup "removal" r = Some (JStr "Expert") ->
  lookup "removal" (edit r) = Some (JStr "Disruptive").
Proof.
  intros H. destruct (edit_cases r) as [[E _] | [[_ ->] | (_ & N & _)]].
  - rewrite H in E. discriminate.
  - apply lookup_set_same.
  - contradiction.
Qed.

Lemma edit_removal_kept (r : dict) :
  lookup "removal" r <> Some (JStr "Recommended") ->
  lookup "removal" r <> Some (JStr "Expert") ->
  lookup "removal" (edit r) = lookup "removal" r.
Proof.
  intros N1 N2. destruct (edit_cases r) as [[E _] | [[E _] | (_ & _ & ->)]];
    try contradiction.
  now apply lookup_strip_other.
Qed.

Lemma edit_deleted (k : string) (r : dict) :
  deleted k = true -> lookup k (edit r) = None.
Proof.
  intros H.
  assert (k <> "removal") as N by (intros ->; discriminate).
  destruct (edit_cases r) as [[_ ->] | [[_ ->] | (_ & _ & ->)]];
    rewrite ?lookup_set_other by exact N; now apply lookup_strip_deleted.
Qed.

Lemma edit_frame (k : string) (r : dict) :
  deleted k = false -> k <> "removal" -> lookup k (edit r) = lookup k r.
Proof.
  intros H N.
  destruct (edit_cases r) as [[_ ->] | [[_ ->] | (_ & _ & ->)]];
    rewrite ?lookup_set_other by exact N; now apply lookup_strip_other.
Qed.

Lemma edit_no_old_value (r : dict) :
  lookup "removal" (edit r) <> Some (JStr "Recommended")
  /\ lookup "removal" (edit r) <> Some (JStr "Expert").
Proof.
  destruct (edit_cases r) as [[_ ->] | [[_ ->] | (N1 & N2 & ->)]];
    rewrite ?lookup_set_same; try (split; discriminate).
  now rewrite (lookup_strip_other "removal" r eq_refl).
Qed.

Lemma keys_edit (r : dict) :
  keys (edit r) = filter (fun k => negb (deleted k)) (keys r).
Proof.
  rewrite <- keys_strip.
  destruct (edit_cases r) as [[E ->] | [[E ->] | (_ & _ & ->)]];
    try reflexivity;
    apply keys_set_present;
    rewrite (lookup_strip_other "removal" r eq_refl), E; discriminate.
Qed.

Lemma strip_fixed (r : dict) :
  (forall k, deleted k = true -> lookup k r = None) -> strip r = r.
Proof.
  intros H. unfold strip.
  rewrite (remove_absent "neededBy" r) by now apply H.
  rewrite (remove_absent "labels" r) by now apply H.
  apply remove_absent. now apply H.
Qed.

Lemma edit_idempotent (r : dict) : edit (edit r) = edit r.
Proof.
  destruct (edit_no_old_value r) as [N1 N2].
  destruct (edit_cases (edit r)) as [[E _] | [[E _] | (_ & _ & ->)]];
    try contradiction.
  apply strip_fixed. intros k. apply edit_deleted.
Qed.

Lemma uniq_edit (r : dict) : uniq r -> uniq (edit r).
Proof.
  intros H.
  assert (uniq (strip r)) as Hs by (unfold strip; now repeat apply uniq_remove).
  destruct (edit_cases r) as [[_ ->] | [[_ ->] | (_ & _ & ->)]];
    try apply uniq_set; exact Hs.
Qed.

(** [entrywise], read by position. *)
Lemma entrywise_nth (P : dict -> dict -> Prop) (d d' : dict) :
  entrywise P d d' ->
  forall i app_id r,
    nth_error d i = Some (app_id, JDict r) ->
    exists r', nth_error d' i = Some (app_id, JDict r') /\ P r r'.
Proof.
  unfold entrywise. induction 1 as [|e e' d d' (Hid & r0 & r0' & He & He' & HP) _ IH].
  - intros [|i]; discriminate.
  - intros [|i] app_id r; simpl.
    + intros [= ->]. simpl in *. injection He as <-.
      exists r0'. split; [|exact HP].
      destruct e' as [id' v']. simpl in *. now subst.
    + apply IH.
Qed.

Lemma all_objects_map_edit (d : dict) :
  all_objects d = true ->
  all_objects (map (fun e => (fst e, edit_value (snd e))) d) = true.
Proof.
  unfold all_objects. induction d as [|[app_id app_data] d IH];
    cbn [map forallb fst snd]; [reflexivity|].
  intros H. apply andb_prop in H. destruct H as [Hd Hrest].
  destruct app_data; try discriminate. cbn [edit_value is_dict andb].
  now apply IH.
Qed.

Lemma keys_map_edit (d : dict) :
  keys (map (fun e => (fst e, edit_value (snd e))) d) = keys d.
Proof. unfold keys. rewrite map_map. reflexivity. Qed.

Lemma edit_value_idempotent (v : json) :
  edit_value (edit_value v) = edit_value v.
Proof. destruct v; cbn [edit_value]; try reflexivity. now rewrite edit_idempotent. Qed.

(** X9.  The output is again made of dictionaries: when no key occurs
    twice in the Document or in a record of it, none does in the
    output. *)
Lemma transform_uniq (d d' : dict) :
  transform (JDict d) = Ok (JDict d') ->
  uniq d ->
  (forall app_id r, In (app_id, JDict r) d -> uniq r) ->
  uniq d' /\ (forall app_id r', In (app_id, JDict r') d' -> uniq r').
Proof.
  intros H U Ur. apply transform_ok_inv in H.
  destruct H as (d0 & [= <-] & Hall & [= ->]). split.
  - unfold uniq. now rewrite keys_map_edit.
  - intros app_id r' Hin. apply in_map_iff in Hin.
    destruct Hin as ([id0 v0] & [= <- Hv] & Hin). cbn [snd] in Hv.
    destruct v0; try discriminate. injection Hv as <-.
    apply uniq_edit. now apply (Ur id0).
Qed.

(* ------------------------------------------------------------------ *)
(** ** The properties of the transformation *)

(** C1.  For a Document whose entries are objects the transformation
    returns, and in every record a [removal] of ["Recommended"] has
    become ["Safe"], a [removal] of ["Expert"] has become
    ["Disruptive"]. *)
Theorem removal_renamed (d : dict) :
  all_objects d = true ->
  exists d',
    transform (JDict d) = Ok (JDict d') /\
    entrywise
      (fun r r' =>
         (lookup "removal" r = Some (JStr "Recommended") ->
          lookup "removal" r' = Some (JStr "Safe"))
         /\ (lookup "removal" r = Some (JStr "Expert") ->
             lookup "removal" r' = Some (JStr "Disruptive")))
      d d'.
Proof.
  apply transform_entrywise. intros r. split.
  - apply edit_recommended.
  - apply edit_expert.
Qed.

Lemma removal_renamed_sample :
  all_objects sample = true /\
  exists d',
    transform (JDict sample) = Ok (JDict d') /\
    entrywise
      (fun r r' =>
         (lookup "removal" r = Some (JStr "Recommended") ->
          lookup "removal" r' = Some (JStr "Safe"))
         /\ (lookup "removal" r = Some (JStr "Expert") ->
             lookup "removal" r' = Some (JStr "Disruptive")))
      sample d'.
Proof. split; [reflexivity | apply (removal_renamed sample); reflexivity]. Defined.

(** C2.  For a Document whose entries are objects, no transformed
    record has a key [neededBy], [labels] or [dependencies], whatever
    the input record had. *)
Theorem fields_deleted (d : dict) :
  all_objects d = true ->
  exists d',
    transform (JDict d) = Ok (JDict d') /\
    entrywise
      (fun _ r' =>
         ~ In "neededBy" (keys r')
         /\ ~ In "labels" (keys r')
         /\ ~ In "dependencies" (keys r'))
      d d'.
Proof.
  apply transform_entrywise. intros r.
  repeat split; apply lookup_None_iff; now apply edit_deleted.
Qed.

Lemma fields_deleted_sample :
  all_objects sample = true /\
  exists d',
    transform (JDict sample) = Ok (JDict d') /\
    entrywise
      (fun _ r' =>
         ~ In "neededBy" (keys r')
         /\ ~ In "labels" (keys r')
         /\ ~ In "dependencies" (keys r'))
      sample d'.
Proof. split; [reflexivity | apply (fields_deleted sample); reflexivity]. Defined.

(** C3.  In every record whose [removal] is absent, or is anything but
    the strings ["Recommended"] and ["Expert"], the [removal] field of
    the transformed record is the one of the input: the same value, or
    absent when it was absent. *)
Theorem removal_kept (d : dict) :
  all_objects d = true ->
  exists d',
    transform (JDict d) = Ok (JDict d') /\
    entrywise
      (fun r r' =>
         lookup "removal" r <> Some (JStr "Recommended") ->
         lookup "removal" r <> Some (JStr "Expert") ->
         lookup "removal" r' = lookup "removal" r)
      d d'.
Proof. apply transform_entrywise. exact edit_removal_kept. Qed.

Lemma removal_kept_sample :
  all_objects sample = true /\
  exists d',
    transform (JDict sample) = Ok (JDict d') /\
    entrywise
      (fun r r' =>
         lookup "removal" r <> Some (JStr "Recommended") ->
         lookup "removal" r <> Some (JStr "Expert") ->
         lookup "removal" r' = lookup "removal" r)
      sample d'.
Proof. split; [reflexivity | apply (removal_kept sample); reflexivity]. Defined.

(** C4.  In every record, a field other than [neededBy], [labels],
    [dependencies] and [removal] is in the transformed record exactly as
    it was in the input: present with the same value, or absent. *)
Theorem other_fields_untouched (d : dict) :
  all_objects d = true ->
  exists d',
    transform (JDict d) = Ok (JDict d') /\
    entrywise
      (fun r r' =>
         forall k,
           k <> "neededBy" -> k <> "labels" -> k <> "dependencies" ->
           k <> "removal" ->
           lookup k r' = lookup k r)
      d d'.
Proof.
  apply transform_entrywise. intros r k N1 N2 N3 N4.
  apply edit_frame; [|exact N4].
  unfold deleted. apply String.eqb_neq in N1, N2, N3.
  now rewrite N1, N2, N3.
Qed.

Lemma other_fields_untouched_sample :
  all_objects sample = true /\
  exists d',
    transform (JDict sample) = Ok (JDict d') /\
    entrywise
      (fun r r' =>
         forall k,
           k <> "neededBy" -> k <> "labels" -> k <> "dependencies" ->
           k <> "removal" ->
           lookup k r' = lookup k r)
      sample d'.
Proof.
  split; [reflexivity | apply (other_fields_untouched sample); reflexivity].
Defined.

(** The identifiers of whatever the transformation returns are those of
    its input, in the same order; it returns for no value but an object
    whose entries are objects. *)
Lemma transform_keys (data out : json) :
  transform data = Ok out ->
  exists d d',
    data = JDict d /\ out = JDict d' /\ all_objects d = true /\
    keys d' = keys d.
Proof.
  intros H. apply transform_ok_inv in H. destruct H as (d & -> & Hall & ->).
  exists d. eexists. repeat split; [exact Hall | apply keys_map_edit].
Qed.

(** C5.  The output Document has the application identifiers of the
    input Document, all of them and no other, in the same order. *)
Theorem document_keys_preserved (d : dict) :
  all_objects d = true ->
  exists d', transform (JDict d) = Ok (JDict d') /\ keys d' = keys d.
Proof.
  intros H. eexists. split; [now apply transform_objects|].
  apply keys_map_edit.
Qed.

Lemma document_keys_preserved_sample :
  all_objects sample = true /\
  exists d', transform (JDict sample) = Ok (JDict d') /\ keys d' = keys sample.
Proof.
  split; [reflexivity | apply (document_keys_preserved sample); reflexivity].
Defined.

(** C6.  Idempotence: for a Document whose entries are objects the
    transformation returns a Document on which it returns that same
    Document. *)
Theorem transform_idempotent (d : dict) :
  all_objects d = true ->
  exists out, transform (JDict d) = Ok out /\ transform out = Ok out.
Proof.
  intros H. eexists. split; [now apply transform_objects|].
  rewrite transform_objects by now apply all_objects_map_edit.
  rewrite map_map. cbn [fst snd]. do 2 f_equal.
  apply map_ext. intros [app_id app_data]. cbn [fst snd].
  now rewrite edit_value_idempotent.
Qed.

Lemma transform_idempotent_sample :
  all_objects sample = true /\
  exists out, transform (JDict sample) = Ok out /\ transform out = Ok out.
Proof.
  split; [reflexivity | apply (transform_idempotent sample); reflexivity].
Defined.

(** C8.  In every record the keys of the transformed record are the
    keys of the input record without the three deleted ones, in the
    order they had: the surviving fields keep their relative order, and
    a renamed [removal] stays where it was among them. *)
Theorem field_order_preserved (d : dict) :
  all_objects d = true ->
  exists d',
    transform (JDict d) = Ok (JDict d') /\
    entrywise
      (fun r r' => keys r' = filter (fun k => negb (deleted k)) (keys r))
      d d'.
Proof. apply transform_entrywise. exact keys_edit. Qed.

Lemma field_order_preserved_sample :
  all_objects sample = true /\
  exists d',
    transform (JDict sample) = Ok (JDict d') /\
    entrywise
      (fun r r' => keys r' = filter (fun k => negb (deleted k)) (keys r))
      sample d'.
Proof.
  split; [reflexivity | apply (field_order_preserved sample); reflexivity].
Defined.

(** C9.  For a Document whose entries are objects, no record of the
    transformed Document has a [removal] equal to the string
    ["Recommended"] or to the string ["Expert"]. *)
Theorem old_values_gone (d : dict) :
  all_objects d = true ->
  exists d',
    transform (JDict d) = Ok (JDict d') /\
    entrywise
      (fun _ r' =>
         lookup "removal" r' <> Some (JStr "Recommended")
         /\ lookup "removal" r' <> Some (JStr "Expert"))
      d d'.
Proof. apply transform_entrywise. exact edit_no_old_value. Qed.

Lemma old_values_gone_sample :
  all_objects sample = true /\
  exists d',
    transform (JDict sample) = Ok (JDict d') /\
    entrywise
      (fun _ r' =>
         lookup "removal" r' <> Some (JStr "Recommended")
         /\ lookup "removal" r' <> Some (JStr "Expert"))
      sample d'.
Proof. split; [reflexivity | apply (old_values_gone sample); reflexivity]. Defined.

(* ------------------------------------------------------------------ *)
(** ** When the loop returns and how it fails *)

(** X1.  The transformation returns exactly on an object all of whose
    entries are objects. *)
Theorem transform_returns_iff (data : json) :
  (exists out, transform data = Ok out)
  <-> (exists d, data = JDict d /\ all_objects d = true).
Proof.
  split.
  - intros [out H]. apply transform_ok_inv in H.
    destruct H as (d & -> & Hall & _). now exists d.
  - intros (d & -> & Hall). eexists. now apply transform_objects.
Qed.

(** X2.  A top-level value that is not an object has no [items]: the
    run ends with [AttributeError].  Whatever the input, the only
    exceptions of the loop are [TypeError] and [AttributeError]; the
    [del] statements, each behind its [in] test, never raise
    [KeyError]. *)
Theorem transform_exceptions (data : json) :
  (is_dict data = false -> transform data = Raise AttributeError)
  /\ (forall e, transform data = Raise e -> e = TypeError \/ e = AttributeError)
  /\ transform data <> Raise KeyError.
Proof.
  split; [|split].
  - destruct data; try discriminate; reflexivity.
  - intros e. apply transform_raise.
  - intros H. apply transform_raise in H. destruct H; discriminate.
Qed.

Lemma transform_exceptions_mixed :
  (is_dict (JList []) = false -> transform (JList []) = Raise AttributeError)
  /\ (forall e, transform (JDict mixed) = Raise e ->
                e = TypeError \/ e = AttributeError).
Proof.
  split.
  - apply (transform_exceptions (JList [])).
  - apply (transform_exceptions (JDict mixed)).
Defined.

(** X3.  What the loop body does with an entry that is not an object.
    [None], a boolean or a number fails at the first [in] test.  A
    string fails at a [del] when one of the three field names occurs in
    it, and at [.get] otherwise; a list likewise, when one of the three
    names is among its elements. *)
Theorem body_non_object :
  body JNull = Raise TypeError
  /\ (forall b, body (JBool b) = Raise TypeError)
  /\ (forall n, body (JInt n) = Raise TypeError)
  /\ (forall f, body (JFloat f) = Raise TypeError)
  /\ (forall s,
        body (JStr s)
        = Raise (if substring_of "neededBy" s || substring_of "labels" s
                    || substring_of "dependencies" s
                 then TypeError else AttributeError))
  /\ (forall l,
        body (JList l)
        = Raise (if has "neededBy" l || has "labels" l
                    || has "dependencies" l
                 then TypeError else AttributeError)).
Proof.
  repeat split; try reflexivity; intros x; unfold body, drop, has;
    cbn [contains bind].
  - destruct (substring_of "neededBy" x);
      cbn [contains delitem bind orb]; [reflexivity|].
    destruct (substring_of "labels" x);
      cbn [contains delitem bind orb]; [reflexivity|].
    destruct (substring_of "dependencies" x); reflexivity.
  - destruct (existsb (fun y => eq_str y "neededBy") x);
      cbn [contains delitem bind orb]; [reflexivity|].
    destruct (existsb (fun y => eq_str y "labels") x);
      cbn [contains delitem bind orb]; [reflexivity|].
    destruct (existsb (fun y => eq_str y "dependencies") x); reflexivity.
Qed.

(** X4.  The first entry that is not an object decides the run: the
    loop ends with the exception of the body on that entry, whatever
    comes after it. *)
Theorem first_non_object_decides
        (d1 d2 : dict) (app_id : string) (v : json) :
  all_objects d1 = true ->
  is_dict v = false ->
  exists e,
    body v = Raise e
    /\ transform (JDict (d1 ++ (app_id, v) :: d2)) = Raise e.
Proof.
  intros H1 Hv.
  assert (exists e, body v = Raise e) as [e He].
  { destruct (body_not_dict v Hv) as [E|E]; rewrite E; eauto. }
  exists e. split; [exact He|].
  unfold transform. cbn [items bind].
  assert (loop (d1 ++ (app_id, v) :: d2) = Raise e) as ->; [|reflexivity].
  induction d1 as [|[id0 v0] d1 IH]; cbn [app loop].
  - now rewrite He.
  - cbn [all_objects forallb snd] in H1. apply andb_prop in H1.
    destruct H1 as [Hd Hrest]. destruct v0; try discriminate.
    rewrite body_dict. cbn [bind]. now rewrite (IH Hrest).
Qed.

Lemma first_non_object_decides_mixed :
  exists e,
    body (JList [JStr "x"]) = Raise e
    /\ transform (JDict mixed) = Raise e.
Proof.
  apply (first_non_object_decides
           [("com.a", JDict [("removal", JStr "Expert")]); ("com.b", JDict [])]
           [("com.d", JInt 7)] "com.c" (JList [JStr "x"]));
    reflexivity.
Defined.

(* ------------------------------------------------------------------ *)
(** ** The loop body without mutation *)

Lemma strip_filter (r : dict) :
  strip r = filter (fun kv => negb (deleted (fst kv))) r.
Proof.
  unfold strip, remove. rewrite !filter_twice.
  apply filter_ext. intros [k v]. cbn [fst]. unfold deleted.
  rewrite (String.eqb_sym k "neededBy"), (String.eqb_sym k "labels"),
    (String.eqb_sym k "dependencies").
  rewrite !negb_orb. apply andb_assoc.
Qed.

Lemma map_rename_absent (d : dict) :
  ~ In "removal" (keys d) -> map rename_item d = d.
Proof.
  induction d as [|[k0 v0] d IH]; cbn [map keys fst In]; [reflexivity|].
  intros H. unfold rename_item at 1. cbn [fst snd].
  destruct (String.eqb "removal" k0) eqn:E.
  - apply String.eqb_eq in E. subst k0. tauto.
  - f_equal. apply IH. tauto.
Qed.

(** On a dictionary the two writes of the [if]/[elif] are the renaming
    of the one item under [removal]. *)
Lemma rename_in_place (d : dict) :
  uniq d ->
  (let removal := match lookup "removal" d with Some x => x | None => JNull end in
   if eq_str removal "Recommended" then set "removal" (JStr "Safe") d
   else if eq_str removal "Expert" then set "removal" (JStr "Disruptive") d
   else d)
  = map rename_item d.
Proof.
  cbv zeta. unfold uniq.
  induction d as [|[k0 v0] d IH]; cbn [lookup map keys fst set];
    [reflexivity|].
  intros U. inversion U as [|? ? Hn Hd]; subst.
  unfold rename_item at 1. cbn [fst snd].
  destruct (String.eqb "removal" k0) eqn:E.
  - apply String.eqb_eq in E. subst k0.
    rewrite (map_rename_absent d Hn). unfold rename.
    destruct (eq_str v0 "Recommended"); [reflexivity|].
    destruct (eq_str v0 "Expert"); reflexivity.
  - rewrite <- (IH Hd).
    destruct (eq_str _ "Recommended"); [reflexivity|].
    destruct (eq_str _ "Expert"); reflexivity.
Qed.

Lemma edit_comprehension (r : dict) : uniq r -> edit r = comprehension r.
Proof.
  intros U. unfold comprehension. rewrite <- strip_filter.
  unfold edit. apply rename_in_place.
  unfold strip. now repeat apply uniq_remove.
Qed.

Lemma sample_uniq : uniq sample.
Proof.
  unfold uniq. cbn. repeat constructor; cbn; intuition discriminate.
Qed.

Lemma sample_records_uniq (app_id : string) (r : dict) :
  In (app_id, JDict r) sample -> uniq r.
Proof.
  unfold sample. cbn [In].
  intros H. repeat destruct H as [H|H]; try contradiction;
    injection H as _ <-; unfold uniq; cbn;
    repeat constructor; cbn; intuition discriminate.
Qed.

(** X6.  On a Document of dictionaries the in-place loop computes, for
    every record, the items whose key is not one of the three deleted
    ones, in their order, with the value under [removal] renamed. *)
Theorem transform_comprehension (d : dict) :
  all_objects d = true ->
  (forall app_id r, In (app_id, JDict r) d -> uniq r) ->
  transform (JDict d)
  = Ok (JDict (map (fun e =>
                      (fst e,
                       match snd e with
                       | JDict r => JDict (comprehension r)
                       | v => v
                       end)) d)).
Proof.
  intros Hall U. rewrite (transform_objects d Hall). do 2 f_equal.
  apply map_ext_in. intros [app_id v] Hin. cbn [fst snd].
  destruct v; try reflexivity. cbn [edit_value].
  now rewrite (edit_comprehension (U app_id d0 Hin)).
Qed.

Lemma transform_comprehension_sample :
  transform (JDict sample)
  = Ok (JDict (map (fun e =>
                      (fst e,
                       match snd e with
                       | JDict r => JDict (comprehension r)
                       | v => v
                       end)) sample)).
Proof.
  apply (transform_comprehension sample);
    [reflexivity | exact sample_records_uniq].
Defined.

Lemma transform_uniq_sample :
  exists d',
    transform (JDict sample) = Ok (JDict d')
    /\ uniq d'
    /\ (forall app_id r', In (app_id, JDict r') d' -> uniq r').
Proof.
  eexists. split; [reflexivity|].
  apply (@transform_uniq sample);
    [reflexivity | exact sample_uniq | exact sample_records_uniq].
Defined.

(* ------------------------------------------------------------------ *)
(** ** The Documents the loop leaves as they are *)

Lemma deleted_cases (k : string) :
  deleted k = true -> k = "neededBy" \/ k = "labels" \/ k = "dependencies".
Proof.
  unfold deleted. intros H.
  apply orb_prop in H. destruct H as [H | H];
    [apply orb_prop in H; destruct H as [H | H] |];
    apply String.eqb_eq in H; auto.
Qed.

Lemma mem_false (k : string) (r : dict) :
  negb (mem k r) = true <-> lookup k r = None.
Proof.
  unfold mem. destruct (lookup k r); cbn [negb];
    split; try reflexivity; discriminate.
Qed.

Lemma edit_fixed_iff (r : dict) : edit r = r <-> settled r = true.
Proof.
  unfold settled. split.
  - intros H.
    assert (forall k, deleted k = true -> negb (mem k r) = true) as D.
    { intros k Hk. apply mem_false. rewrite <- H. now apply edit_deleted. }
    rewrite (D "neededBy" eq_refl), (D "labels" eq_refl),
      (D "dependencies" eq_refl). cbn [andb].
    destruct (edit_no_old_value r) as [N1 N2]. rewrite H in N1, N2.
    destruct (lookup "removal" r) as [x|]; [|reflexivity].
    destruct (eq_str x "Recommended") eqn:E1.
    { apply eq_str_true in E1. now subst x. }
    destruct (eq_str x "Expert") eqn:E2; [|reflexivity].
    apply eq_str_true in E2. now subst x.
  - intros H.
    apply andb_prop in H. destruct H as [H Hr].
    apply andb_prop in H. destruct H as [H H3].
    apply andb_prop in H. destruct H as [H1 H2].
    apply mem_false in H1, H2, H3.
    assert (strip r = r) as S.
    { apply strip_fixed. intros k Hk.
      destruct (deleted_cases k Hk) as [-> | [-> | ->]]; assumption. }
    destruct (edit_cases r) as [[E _] | [[E _] | (_ & _ & ->)]];
      [| | exact S]; rewrite E in Hr.
    + now rewrite (proj2 (eq_str_true (JStr "Recommended") "Recommended") eq_refl)
        in Hr.
    + rewrite (proj2 (eq_str_true (JStr "Expert") "Expert") eq_refl) in Hr.
      now rewrite andb_false_r in Hr.
Qed.

Lemma settled_doc_iff (d : dict) :
  settled_doc d = true
  <-> all_objects d = true
      /\ map (fun e => (fst e, edit_value (snd e))) d = d.
Proof.
  unfold settled_doc, all_objects.
  induction d as [|[app_id v] d IH]; cbn [forallb map fst snd].
  - tauto.
  - rewrite !andb_true_iff, IH. split.
    + intros [Hv [Hall Hmap]]. destruct v; try discriminate.
      cbn [settled_value] in Hv. apply edit_fixed_iff in Hv.
      cbn [is_dict edit_value]. now rewrite Hv, Hmap.
    + intros [[Hv Hall] Hmap]. destruct v; try discriminate.
      cbn [edit_value] in Hmap. injection Hmap as He Hmap.
      cbn [settled_value]. rewrite <- edit_fixed_iff. auto.
Qed.

(** X7.  The transformation returns its input unchanged exactly when
    every entry is an object without [neededBy], [labels] and
    [dependencies] whose [removal], if any, is neither ["Recommended"]
    nor ["Expert"]. *)
Theorem transform_fixed_iff (d : dict) :
  transform (JDict d) = Ok (JDict d) <-> settled_doc d = true.
Proof.
  rewrite settled_doc_iff. split.
  - intros H. apply transform_ok_inv in H.
    destruct H as (d0 & [= <-] & Hall & [= E]). now rewrite <- E.
  - intros [Hall E]. rewrite (transform_objects d Hall). now rewrite E.
Qed.
